(** * UpgradeMessageView (lms/static/js/learner_dashboard/views/upgrade_message_view.js)

    A shallow embedding of the Backbone view that renders the "upgrade
    message" of the learner dashboard, and the properties of its
    [initialize] and [render] methods.

    The view is stateful JavaScript: it writes two fields of [this], reads a
    Backbone model, replaces the content of a DOM element and calls an
    analytics helper.  The embedding threads an explicit [state] through a
    small state-and-exception monad and records every call to a collaborator
    in a log, so that what is called, with which arguments and in which order
    can be stated. *)

From Stdlib Require Import ZArith String List.
From stdpp Require Import base option list strings gmap fin_maps.

Local Open Scope string_scope.
Local Open Scope list_scope.

(** ** JavaScript values held by model attributes and option fields *)

Inductive value : Type :=
  | VUndefined
  | VNull
  | VBool (b : bool)
  | VNum (n : Z)
  | VStr (s : string).

#[global] Instance value_eq_dec : EqDecision value.
Proof. solve_decision. Defined.

(** The test of [if (v)]. *)
Definition truthy (v : value) : bool :=
  match v with
  | VUndefined | VNull => false
  | VBool b => b
  | VNum n => negb (n =? 0)%Z
  | VStr s => negb (String.eqb s "")
  end.

(** A plain object: property names to values. *)
Abbreviation object := (gmap string value).

(** A field that is missing and a field that holds [undefined] both read as
    [undefined]; [defined_field o k] is the value of a field that reads as
    something else. *)
Definition defined_field (o : object) (k : string) : option value :=
  match o !! k with
  | Some VUndefined | None => None
  | Some v => Some v
  end.

(** ** [$.extend(target, src)]

    jQuery's shallow merge: every enumerable property of [src] whose value is
    not [undefined] is assigned to [target]; the (mutated) target is the
    result. *)
Definition extend_step (name : string) (copy : value) (target : object) : object :=
  if decide (copy = VUndefined) then target else <[name := copy]> target.

Definition extend (target src : object) : object :=
  map_fold extend_step target src.

(** ** The two imported templates, and handles on the outside world *)

Inductive template_source : Type :=
  | upgradeMessageTpl
  | upgradeMessageSubscriptionTpl.

#[global] Instance template_source_eq_dec : EqDecision template_source.
Proof. solve_decision. Defined.

(** A jQuery handle on a mount element, and a reference to a Backbone model. *)
Definition handle := nat.
Definition loc := nat.

(** The collaborators the file imports but does not define: the markup a
    compiled template produces from a data record, and the elements a
    selector matches inside some markup.  A compiled template is a function
    of the data it is given; neither collaborator is handed the model. *)
Class Host : Type := {
  markup : Type;
  element : Type;
  HtmlUtils_template : template_source -> object -> markup;
  querySelectorAll : markup -> string -> list element;
}.

Inductive exn : Type :=
  | TypeError (msg : string).

Inductive outcome (A : Type) : Type :=
  | Ok (a : A)
  | Throw (e : exn).

Arguments Ok {A} a.
Arguments Throw {A} e.

(** The construction options: [options.is_eligible_for_subscription], tested
    for truthiness ([VUndefined] when the caller leaves it out), and
    [options.$el], the jQuery handle on the mount element that the caller
    has to supply. *)
Record options : Type := {
  is_eligible_for_subscription : value;
  o_el : handle;
}.

(** The fields of [this] the file uses: [this.messageTpl], [this.$el] and
    [this.model] ([None] when the view was given no model). *)
Record view : Type := {
  messageTpl : option template_source;
  el : handle;
  model : option loc;
}.

Section View.
Context `{Host}.

(** What the view does to its surroundings, in program order. *)
Inductive event : Type :=
  | SelectTemplate (t : template_source)
  | StoreEl (h : handle)
  | ToJSON (l : loc)
  | Extend (data : object)
  | CallTemplate (t : template_source) (data : object)
  | SetHtml (h : handle) (html : markup)
  | Find (h : handle) (selector : string)
  | TrackUpsellClick (elts : list element) (linkName : string) (optionalAttrs : object).

(** [this], the attributes of the Backbone models, the content of the mount
    elements, and the log. *)
Record state : Type := {
  this : view;
  heap : gmap loc object;
  dom : gmap handle markup;
  log : list event;
}.

Definition M (A : Type) : Type := state -> outcome A * state.

Definition ret {A} (a : A) : M A := fun s => (Ok a, s).

Definition bind {A B} (m : M A) (k : A -> M B) : M B :=
  fun s =>
    match m s with
    | (Ok a, s') => k a s'
    | (Throw e, s') => (Throw e, s')
    end.

Definition throw {A} (e : exn) : M A := fun s => (Throw e, s).

Definition get : M state := fun s => (Ok s, s).

Definition emit (e : event) : M unit :=
  fun s => (Ok tt, {| this := this s; heap := heap s; dom := dom s; log := log s ++ [e] |}).

Definition set_this (v : view) : M unit :=
  fun s => (Ok tt, {| this := v; heap := heap s; dom := dom s; log := log s |}).

Definition set_dom (d : gmap handle markup) : M unit :=
  fun s => (Ok tt, {| this := this s; heap := heap s; dom := d; log := log s |}).

End View.

Notation "'let*' x := m 'in' k" := (bind m (fun x => k))
  (at level 10, x name, m at level 100, k at level 200).
Notation "m >> k" := (bind m (fun _ => k))
  (at level 100, k at level 200, right associativity).

Section Methods.
Context `{Host}.

(** [this.messageTpl = HtmlUtils.template(t)] *)
Definition assign_messageTpl (t : template_source) : M unit :=
  let* s := get in
  set_this {| messageTpl := Some t; el := el (this s); model := model (this s) |} >>
  emit (SelectTemplate t).

(** [this.$el = h] *)
Definition assign_el (h : handle) : M unit :=
  let* s := get in
  set_this {| messageTpl := messageTpl (this s); el := h; model := model (this s) |} >>
  emit (StoreEl h).

(** [this.model.toJSON()]: a copy of the model's attributes.  Without a
    model, or with something that is not a Backbone model, the call throws. *)
Definition toJSON : M object :=
  let* s := get in
  match model (this s) with
  | None => throw (TypeError "this.model is undefined")
  | Some l =>
      match heap s !! l with
      | None => throw (TypeError "this.model.toJSON is not a function")
      | Some attributes => emit (ToJSON l) >> ret attributes
      end
  end.

(** [this.messageTpl(data)] *)
Definition call_messageTpl (data : object) : M markup :=
  let* s := get in
  match messageTpl (this s) with
  | None => throw (TypeError "this.messageTpl is not a function")
  | Some t => emit (CallTemplate t data) >> ret (HtmlUtils_template t data)
  end.

(** [HtmlUtils.setHtml(element, html)]: replaces the content of the
    element. *)
Definition HtmlUtils_setHtml (h : handle) (html : markup) : M unit :=
  let* s := get in
  emit (SetHtml h html) >>
  set_dom (<[h := html]> (dom s)).

(** The elements [selector] matches inside the content of [h]. *)
Definition matches (d : gmap handle markup) (h : handle) (selector : string)
    : list element :=
  match d !! h with
  | Some content => querySelectorAll content selector
  | None => []
  end.

(** [this.$el.find(selector)] *)
Definition find (selector : string) : M (list element) :=
  let* s := get in
  emit (Find (el (this s)) selector) >>
  ret (matches (dom s) (el (this s)) selector).

(** [trackECommerceEvents.trackUpsellClick(elts, linkName, optionalAttrs)] *)
Definition trackUpsellClick (elts : list element) (linkName : string)
    (optionalAttrs : object) : M unit :=
  emit (TrackUpsellClick elts linkName optionalAttrs).

(** The object literal [render] starts from. *)
Definition defaults : object :=
  <["is_eligible_for_subscription" := VBool true]>
  (<["subscription_state" := VStr "active"]>
  (<["subscription_price" := VStr "$39"]>
  (<["trial_length" := VNum 7]> ∅))).

Definition render_data (attributes : object) : object :=
  extend defaults attributes.

Definition render : M unit :=
  let* attributes := toJSON in
  let data := render_data attributes in
  emit (Extend data) >>
  let* s := get in
  let* html := call_messageTpl data in
  HtmlUtils_setHtml (el (this s)) html.

Definition upsell_selector : string := ".program_dashboard_course_upsell_button".

Definition upsell_context : object :=
  <["linkType" := VStr "button"]>
  (<["pageName" := VStr "program_dashboard"]>
  (<["linkCategory" := VStr "green_upgrade"]> ∅)).

Definition initialize (opts : options) : M unit :=
  (if truthy (is_eligible_for_subscription opts)
   then assign_messageTpl upgradeMessageSubscriptionTpl
   else assign_messageTpl upgradeMessageTpl) >>
  assign_el (o_el opts) >>
  render >>
  let* courseUpsellButtons := find upsell_selector in
  trackUpsellClick courseUpsellButtons "program_dashboard_course" upsell_context.

End Methods.

(** ** A concrete host, to run the view on

    Markup is a list of elements, each carrying its class, the name of the
    template that produced it and the field it shows.  The standard template
    renders one upsell button, the subscription template a banner and, for
    an active subscription, two buttons. *)
Module Demo.

Record node : Type := {
  node_class : string;
  node_template : template_source;
  node_text : option value;
}.

Definition button (t : template_source) (data : object) : node :=
  {| node_class := ".program_dashboard_course_upsell_button";
     node_template := t;
     node_text := data !! "subscription_price" |}.

Definition banner (t : template_source) (data : object) : node :=
  {| node_class := ".subscription_banner";
     node_template := t;
     node_text := data !! "subscription_state" |}.

Definition demo_template (t : template_source) (data : object) : list node :=
  match t with
  | upgradeMessageTpl => [button t data]
  | upgradeMessageSubscriptionTpl =>
      if decide (data !! "subscription_state" = Some (VStr "active"))
      then [banner t data; button t data; button t data]
      else [banner t data]
  end.

Definition demo_select (html : list node) (selector : string) : list node :=
  List.filter (fun n => String.eqb (node_class n) selector) html.

#[export] Instance demo_host : Host := {|
  markup := list node;
  element := node;
  HtmlUtils_template := demo_template;
  querySelectorAll := demo_select;
|}.

(** A view with model 5, as [initialize] finds it. *)
Definition fresh (attributes : object) : state :=
  {| this := {| messageTpl := None; el := 0; model := Some 5 |};
     heap := {[ 5 := attributes ]};
     dom := ∅;
     log := [] |}.

(** The same view without a model. *)
Definition orphan : state :=
  {| this := {| messageTpl := None; el := 0; model := None |};
     heap := ∅;
     dom := ∅;
     log := [] |}.

Definition opts (flag : bool) : options :=
  {| is_eligible_for_subscription := VBool flag; o_el := 1 |}.

End Demo.

(** ** Observing a run *)

Section Observations.
Context `{Host}.

(** The template [initialize] chooses for a value of the flag. *)
Definition selected_template (flag : value) : template_source :=
  if truthy flag then upgradeMessageSubscriptionTpl else upgradeMessageTpl.

(** The state in which [initialize] calls [render]. *)
Definition configured (opts : options) (s : state) : state :=
  let t := selected_template (is_eligible_for_subscription opts) in
  {| this := {| messageTpl := Some t; el := o_el opts; model := model (this s) |};
     heap := heap s; dom := dom s;
     log := log s ++ [SelectTemplate t; StoreEl (o_el opts)] |}.

(** The events a run from [s] to [s'] added to the log. *)
Definition emitted (s s' : state) : list event :=
  drop (length (log s)) (log s').

(** The calls of a compiled template among some events, with the data each
    received. *)
Definition template_calls (es : list event) : list (template_source * object) :=
  omap (fun e => match e with CallTemplate t data => Some (t, data) | _ => None end) es.

(** The markup written into mount elements among some events. *)
Definition written (es : list event) : list (handle * markup) :=
  omap (fun e => match e with SetHtml h html => Some (h, html) | _ => None end) es.

(** The calls of [trackUpsellClick] among some events, with their
    arguments. *)
Definition tracked (es : list event) : list (list element * string * object) :=
  omap (fun e => match e with
                 | TrackUpsellClick elts linkName attrs => Some (elts, linkName, attrs)
                 | _ => None
                 end) es.

(** The state [n] calls of [render] lead to, whether they return or throw. *)
Definition after_renders (n : nat) (s : state) : state :=
  Nat.iter n (fun s' => (render s').2) s.

(** The view has a model whose attributes are [a]. *)
Definition has_model (s : state) (l : loc) (a : object) : Prop :=
  model (this s) = Some l /\ heap s !! l = Some a.

(** The host changes the attributes of model [l] between two calls of the
    view (Backbone's [model.set], seen from the view). *)
Definition set_attributes (l : loc) (a : object) (s : state) : state :=
  {| this := this s; heap := <[l := a]> (heap s); dom := dom s; log := log s |}.

(** The lookups of upsell buttons among some events. *)
Definition lookups (es : list event) : list (handle * string) :=
  omap (fun e => match e with Find h selector => Some (h, selector) | _ => None end) es.

End Observations.

(** ** Properties of the merge *)

Lemma defined_field_empty (k : string) : defined_field ∅ k = None.
Proof. unfold defined_field. by rewrite lookup_empty. Qed.

Lemma defined_field_insert (o : object) (i k : string) (x : value) :
  defined_field (<[i := x]> o) k =
    if decide (i = k)
    then (if decide (x = VUndefined) then None else Some x)
    else defined_field o k.
Proof.
  unfold defined_field. rewrite lookup_insert.
  destruct (decide (i = k)); [|done].
  destruct (decide (x = VUndefined)) as [->|Hx]; [done|by destruct x].
Qed.

(** Reading a property of the merged object: the source wins wherever it
    holds a value other than [undefined]. *)
Lemma extend_lookup (target src : object) (k : string) :
  extend target src !! k =
    match defined_field src k with
    | Some v => Some v
    | None => target !! k
    end.
Proof.
  revert k. unfold extend.
  apply (map_fold_weak_ind
           (fun r m => forall k, r !! k =
              match defined_field m k with Some v => Some v | None => target !! k end)).
  - intros k. by rewrite defined_field_empty.
  - intros i x m r Hi IH k. rewrite defined_field_insert. unfold extend_step.
    destruct (decide (x = VUndefined)) as [->|Hx].
    + rewrite IH. destruct (decide (i = k)) as [->|]; [|done].
      unfold defined_field. by rewrite Hi.
    + rewrite lookup_insert. destruct (decide (i = k)); [done|apply IH].
Qed.

(** ** The merge and the two methods on concrete inputs *)

Example extend_overrides :
  extend defaults {[ "subscription_price" := VStr "$99" ]} !! "subscription_price"
    = Some (VStr "$99").
Proof. reflexivity. Qed.

Example extend_keeps_default :
  extend defaults {[ "subscription_price" := VStr "$99" ]} !! "trial_length"
    = Some (VNum 7).
Proof. reflexivity. Qed.

Example extend_skips_undefined :
  extend defaults {[ "trial_length" := VUndefined; "course" := VNull ]}
    = <["course" := VNull]> defaults.
Proof. reflexivity. Qed.

(** Options [{is_eligible_for_subscription: true}] and model [{}]: the
    subscription template is called with the four defaults. *)
Example scenario_subscription :
  template_calls (log (initialize (Demo.opts true) (Demo.fresh ∅)).2)
    = [(upgradeMessageSubscriptionTpl, defaults)].
Proof. reflexivity. Qed.

Example scenario_log :
  log (initialize (Demo.opts false)
         (Demo.fresh {[ "subscription_price" := VStr "$99" ]})).2
    = [SelectTemplate upgradeMessageTpl; StoreEl 1; ToJSON 5;
       Extend (<["subscription_price" := VStr "$99"]> defaults);
       CallTemplate upgradeMessageTpl (<["subscription_price" := VStr "$99"]> defaults);
       @SetHtml Demo.demo_host 1 [Demo.button upgradeMessageTpl
                    (<["subscription_price" := VStr "$99"]> defaults)];
       Find 1 upsell_selector;
       @TrackUpsellClick Demo.demo_host
         [Demo.button upgradeMessageTpl (<["subscription_price" := VStr "$99"]> defaults)]
         "program_dashboard_course" upsell_context].
Proof. reflexivity. Qed.

Example scenario_no_model :
  initialize (Demo.opts true) Demo.orphan
    = (Throw (TypeError "this.model is undefined"),
       configured (Demo.opts true) Demo.orphan).
Proof. reflexivity. Qed.


(** ** Running [render] and [initialize] *)

Section Runs.
Context `{Host}.

Lemma emitted_app (s s' : state) (es : list event) :
  log s' = log s ++ es -> emitted s s' = es.
Proof. intros E. unfold emitted. rewrite E. apply drop_app_length. Qed.

Lemma emitted_mk (s : state) (v : view) (hp : gmap loc object)
    (d : gmap handle markup) (es : list event) :
  emitted s {| this := v; heap := hp; dom := d; log := log s ++ es |} = es.
Proof. by apply emitted_app. Qed.

Lemma emitted_refl (s : state) : emitted s s = [].
Proof. apply emitted_app. by rewrite app_nil_r. Qed.

Lemma render_ok (s : state) (l : loc) (a : object) (t : template_source) :
  has_model s l a -> messageTpl (this s) = Some t ->
  let data := render_data a in
  let html := HtmlUtils_template t data in
  render s =
    (Ok tt,
     {| this := this s; heap := heap s;
        dom := <[el (this s) := html]> (dom s);
        log := log s ++ [ToJSON l; Extend data; CallTemplate t data;
                         SetHtml (el (this s)) html] |}).
Proof.
  intros [Hm Ha] Ht. unfold render, toJSON, call_messageTpl, HtmlUtils_setHtml,
    bind, get, emit, set_dom, ret. cbn. rewrite Hm, Ha. cbn. rewrite Ht. cbn.
  by rewrite <- !app_assoc.
Qed.

Lemma render_no_model (s : state) :
  model (this s) = None ->
  render s = (Throw (TypeError "this.model is undefined"), s).
Proof.
  intros Hm. unfold render, toJSON, bind, get, throw. cbn. by rewrite Hm.
Qed.

Lemma render_not_a_model (s : state) (l : loc) :
  model (this s) = Some l -> heap s !! l = None ->
  render s = (Throw (TypeError "this.model.toJSON is not a function"), s).
Proof.
  intros Hm Ha. unfold render, toJSON, bind, get, throw. cbn. by rewrite Hm, Ha.
Qed.

Lemma render_no_template (s : state) (l : loc) (a : object) :
  has_model s l a -> messageTpl (this s) = None ->
  render s =
    (Throw (TypeError "this.messageTpl is not a function"),
     {| this := this s; heap := heap s; dom := dom s;
        log := log s ++ [ToJSON l; Extend (render_data a)] |}).
Proof.
  intros [Hm Ha] Ht. unfold render, toJSON, call_messageTpl, bind, get, emit,
    throw, ret. cbn. rewrite Hm, Ha. cbn. rewrite Ht.
  by rewrite <- !app_assoc.
Qed.

(** The four ways a call of [render] can go. *)
Lemma render_cases (s : state) :
  (model (this s) = None) \/
  (exists l, model (this s) = Some l /\ heap s !! l = None) \/
  (exists l a, has_model s l a /\ messageTpl (this s) = None) \/
  (exists l a t, has_model s l a /\ messageTpl (this s) = Some t).
Proof.
  unfold has_model.
  destruct (model (this s)) as [l|] eqn:Hm; [|by left].
  destruct (heap s !! l) as [a|] eqn:Ha; [|right; left; eauto].
  destruct (messageTpl (this s)) as [t|] eqn:Ht; right; right; [right|left]; eauto 10.
Qed.

Lemma render_this (s : state) : this (render s).2 = this s.
Proof.
  destruct (render_cases s) as [Hm|[(l & Hm & Ha)|[(l & a & Hm & Ht)|(l & a & t & Hm & Ht)]]].
  - by rewrite render_no_model.
  - by rewrite (render_not_a_model s l).
  - by rewrite (render_no_template s l a).
  - by rewrite (render_ok s l a t).
Qed.

Lemma render_heap (s : state) : heap (render s).2 = heap s.
Proof.
  destruct (render_cases s) as [Hm|[(l & Hm & Ha)|[(l & a & Hm & Ht)|(l & a & t & Hm & Ht)]]].
  - by rewrite render_no_model.
  - by rewrite (render_not_a_model s l).
  - by rewrite (render_no_template s l a).
  - by rewrite (render_ok s l a t).
Qed.

Lemma initialize_unfold (opts : options) (s : state) :
  initialize opts s =
    (render >>
     let* courseUpsellButtons := find upsell_selector in
     trackUpsellClick courseUpsellButtons "program_dashboard_course" upsell_context)
    (configured opts s).
Proof.
  unfold initialize, configured, selected_template.
  destruct (truthy (is_eligible_for_subscription opts));
    unfold bind at 1; unfold assign_messageTpl, assign_el, bind, get, set_this, emit;
    cbn; by rewrite <- !app_assoc.
Qed.

Lemma initialize_ok (opts : options) (s : state) (l : loc) (a : object) :
  has_model s l a ->
  let t := selected_template (is_eligible_for_subscription opts) in
  let data := render_data a in
  let html := HtmlUtils_template t data in
  initialize opts s =
    (Ok tt,
     {| this := {| messageTpl := Some t; el := o_el opts; model := Some l |};
        heap := heap s;
        dom := <[o_el opts := html]> (dom s);
        log := log s ++
          [SelectTemplate t; StoreEl (o_el opts); ToJSON l; Extend data;
           CallTemplate t data; SetHtml (o_el opts) html;
           Find (o_el opts) upsell_selector;
           TrackUpsellClick (querySelectorAll html upsell_selector)
             "program_dashboard_course" upsell_context] |}).
Proof.
  intros [Hm Ha] t data html. rewrite initialize_unfold. unfold bind at 1.
  rewrite (render_ok (configured opts s) l a t); [|by split|done].
  unfold find, trackUpsellClick, matches, bind, get, emit, ret. cbn.
  rewrite lookup_insert_eq, Hm. by rewrite <- !app_assoc.
Qed.

Lemma initialize_no_model (opts : options) (s : state) :
  model (this s) = None ->
  initialize opts s =
    (Throw (TypeError "this.model is undefined"), configured opts s).
Proof.
  intros Hm. rewrite initialize_unfold. unfold bind at 1.
  by rewrite render_no_model.
Qed.

Lemma initialize_not_a_model (opts : options) (s : state) (l : loc) :
  model (this s) = Some l -> heap s !! l = None ->
  initialize opts s =
    (Throw (TypeError "this.model.toJSON is not a function"), configured opts s).
Proof.
  intros Hm Ha. rewrite initialize_unfold. unfold bind at 1.
  by rewrite (render_not_a_model _ l).
Qed.

(** The three ways a call of [initialize] can go. *)
Lemma initialize_cases (opts : options) (s : state) :
  (model (this s) = None) \/
  (exists l, model (this s) = Some l /\ heap s !! l = None) \/
  (exists l a, has_model s l a).
Proof.
  unfold has_model.
  destruct (model (this s)) as [l|] eqn:Hm; [|by left].
  destruct (heap s !! l) as [a|] eqn:Ha; right; [right|left]; eauto.
Qed.

Lemma initialize_this (opts : options) (s : state) :
  this (initialize opts s).2 =
    {| messageTpl := Some (selected_template (is_eligible_for_subscription opts));
       el := o_el opts; model := model (this s) |}.
Proof.
  destruct (initialize_cases opts s) as [Hm|[(l & Hm & Ha)|(l & a & Hm)]].
  - rewrite initialize_no_model by done. done.
  - rewrite (initialize_not_a_model opts s l) by done. done.
  - rewrite (initialize_ok opts s l a Hm). cbn. by destruct Hm as [-> _].
Qed.

Lemma initialize_heap (opts : options) (s : state) :
  heap (initialize opts s).2 = heap s.
Proof.
  destruct (initialize_cases opts s) as [Hm|[(l & Hm & Ha)|(l & a & Hm)]].
  - by rewrite initialize_no_model.
  - by rewrite (initialize_not_a_model opts s l).
  - by rewrite (initialize_ok opts s l a Hm).
Qed.

(** Without a model to serialize, [initialize] stops after its two
    assignments. *)
Lemma initialize_emitted_throw (opts : options) (s : state) :
  (forall l a, ~ has_model s l a) ->
  emitted s (initialize opts s).2 =
    [SelectTemplate (selected_template (is_eligible_for_subscription opts));
     StoreEl (o_el opts)].
Proof.
  intros Hno.
  destruct (initialize_cases opts s) as [Hm|[(l & Hm & Ha)|(l & a & Hm)]].
  - rewrite initialize_no_model by done. apply emitted_mk.
  - rewrite (initialize_not_a_model opts s l) by done. apply emitted_mk.
  - by destruct (Hno l a).
Qed.

End Runs.

(** ** The render data *)

Section RenderData.
Context `{Host}.

(** The merge as a union: the source without its [undefined] fields, over
    the target. *)
Lemma extend_union (target src : object) :
  extend target src = filter (fun kv => kv.2 <> VUndefined) src ∪ target.
Proof.
  apply map_eq. intros k. rewrite extend_lookup, lookup_union. unfold defined_field.
  destruct (src !! k) as [v|] eqn:Hk.
  - destruct (decide (v = VUndefined)) as [->|Hv].
    + rewrite (proj2 (map_lookup_filter_None _ src k)); [by rewrite (left_id_L None _)|].
      right. intros x Hx. rewrite Hk in Hx. injection Hx as <-. cbn. auto.
    + rewrite (map_lookup_filter_Some_2 _ src k v Hk Hv).
      destruct v, (target !! k); done.
  - rewrite (proj2 (map_lookup_filter_None _ src k)); [by rewrite (left_id_L None _)|].
    by left.
Qed.

Lemma render_calls_template (s : state) (l : loc) (a : object) (t : template_source) :
  has_model s l a -> messageTpl (this s) = Some t ->
  template_calls (emitted s (render s).2) = [(t, render_data a)].
Proof.
  intros Hm Ht. rewrite (render_ok s l a t Hm Ht). cbn.
  by rewrite emitted_mk.
Qed.

Lemma initialize_calls_template (opts : options) (s : state) (l : loc) (a : object) :
  has_model s l a ->
  template_calls (emitted s (initialize opts s).2) =
    [(selected_template (is_eligible_for_subscription opts), render_data a)].
Proof.
  intros Hm. rewrite (initialize_ok opts s l a Hm). cbn.
  by rewrite emitted_mk.
Qed.

(** C3: for every data model, the data [render] passes to the template is
    the default record [{is_eligible_for_subscription: true,
    subscription_state: "active", subscription_price: "$39", trial_length: 7}]
    merged with the serialized model: a field the model defines overrides the
    default of the same name, and a default is used exactly when the model
    does not define the field (a field holding [undefined] is not defined).
    No other field appears. *)
Theorem render_data_overrides_defaults
    (s : state) (l : loc) (a : object) (t : template_source) :
  has_model s l a -> messageTpl (this s) = Some t ->
  let dflt : object :=
    {[ "is_eligible_for_subscription" := VBool true;
       "subscription_state" := VStr "active";
       "subscription_price" := VStr "$39";
       "trial_length" := VNum 7 ]} in
  exists data,
    template_calls (emitted s (render s).2) = [(t, data)] /\
    data = filter (fun kv => kv.2 <> VUndefined) a ∪ dflt /\
    (forall k v, defined_field a k = Some v -> data !! k = Some v) /\
    (forall k, defined_field a k = None -> data !! k = dflt !! k).
Proof.
  intros Hm Ht dflt. exists (render_data a). split; [|split; [|split]].
  - by apply (render_calls_template s l a t).
  - apply extend_union.
  - intros k v Hk. unfold render_data. by rewrite extend_lookup, Hk.
  - intros k Hk. unfold render_data. by rewrite extend_lookup, Hk.
Qed.

End RenderData.

Lemma render_data_overrides_defaults_witness :
  exists data,
    template_calls
      (emitted (configured (Demo.opts true) (Demo.fresh {[ "trial_length" := VNum 14 ]}))
         (render (configured (Demo.opts true) (Demo.fresh {[ "trial_length" := VNum 14 ]}))).2)
      = [(upgradeMessageSubscriptionTpl, data)] /\
    data !! "trial_length" = Some (VNum 14) /\
    data !! "subscription_price" = Some (VStr "$39").
Proof.
  destruct (render_data_overrides_defaults
              (configured (Demo.opts true) (Demo.fresh {[ "trial_length" := VNum 14 ]}))
              5 {[ "trial_length" := VNum 14 ]} upgradeMessageSubscriptionTpl)
    as (data & Hcall & _ & Hdef & Hdflt).
  - unfold has_model. split; reflexivity.
  - reflexivity.
  - exists data. split; [exact Hcall|]. split.
    + apply Hdef. reflexivity.
    + rewrite Hdflt; reflexivity.
Defined.

(** ** Which template, and with which data *)

Section Selection.
Context `{Host}.

(** C1: whenever the option [is_eligible_for_subscription] is false (or
    falsy) and the model does not define a field of that name, the data
    passed to the selected template, the standard one, still holds
    [is_eligible_for_subscription = true]; with the model
    [{subscription_price: "$99"}] the data is
    [{is_eligible_for_subscription: true, subscription_state: "active",
    subscription_price: "$99", trial_length: 7}]. *)
Theorem render_flag_ignores_option
    (opts : options) (s : state) (l : loc) (a : object) :
  truthy (is_eligible_for_subscription opts) = false ->
  has_model s l a ->
  defined_field a "is_eligible_for_subscription" = None ->
  exists data,
    template_calls (emitted s (initialize opts s).2) = [(upgradeMessageTpl, data)] /\
    data !! "is_eligible_for_subscription" = Some (VBool true) /\
    (a = {[ "subscription_price" := VStr "$99" ]} ->
     data = {[ "is_eligible_for_subscription" := VBool true;
               "subscription_state" := VStr "active";
               "subscription_price" := VStr "$99";
               "trial_length" := VNum 7 ]}).
Proof.
  intros Hflag Hm Hfield. exists (render_data a). split; [|split].
  - rewrite (initialize_calls_template opts s l a Hm).
    unfold selected_template. by rewrite Hflag.
  - unfold render_data. by rewrite extend_lookup, Hfield.
  - intros ->. apply map_eq. intros k. unfold render_data.
    rewrite <- !insert_empty.
    rewrite extend_lookup, defined_field_insert, defined_field_empty.
    destruct (decide ("subscription_price" = k)) as [<-|Hk]; [done|].
    unfold defaults. rewrite !lookup_insert. repeat case_decide; congruence.
Qed.

(** C2: for every options record, [initialize] selects the subscription
    template when [options.is_eligible_for_subscription] is true and the
    standard template when it is false, and no other template is called
    during the render of that construction; with a model to render, the
    selected template is called exactly once. *)
Theorem initialize_selects_template (opts : options) (s : state) :
  let s' := (initialize opts s).2 in
  let t := if truthy (is_eligible_for_subscription opts)
           then upgradeMessageSubscriptionTpl else upgradeMessageTpl in
  (is_eligible_for_subscription opts = VBool true -> t = upgradeMessageSubscriptionTpl) /\
  (is_eligible_for_subscription opts = VBool false -> t = upgradeMessageTpl) /\
  messageTpl (this s') = Some t /\
  (forall t' data, (t', data) ∈ template_calls (emitted s s') -> t' = t) /\
  (forall l a, has_model s l a ->
     template_calls (emitted s s') = [(t, render_data a)]).
Proof.
  intros s' t. subst s'. split; [|split; [|split; [|split]]].
  - intros E. subst t. by rewrite E.
  - intros E. subst t. by rewrite E.
  - by rewrite initialize_this.
  - intros t' data Hin.
    destruct (initialize_cases opts s) as [Hm|[(l & Hm & Ha)|(l & a & Hm)]].
    + rewrite initialize_emitted_throw in Hin.
      * cbn in Hin. by apply elem_of_nil in Hin.
      * intros l a [Hl _]. congruence.
    + rewrite initialize_emitted_throw in Hin.
      * cbn in Hin. by apply elem_of_nil in Hin.
      * intros l' a [Hl Ha']. congruence.
    + rewrite (initialize_calls_template opts s l a Hm) in Hin.
      apply list_elem_of_singleton in Hin. by injection Hin as -> _.
  - intros l a Hm. by rewrite (initialize_calls_template opts s l a Hm).
Qed.

End Selection.

Lemma render_flag_ignores_option_witness :
  exists data,
    template_calls
      (emitted (Demo.fresh {[ "subscription_price" := VStr "$99" ]})
         (initialize (Demo.opts false)
            (Demo.fresh {[ "subscription_price" := VStr "$99" ]})).2)
      = [(upgradeMessageTpl, data)] /\
    data !! "is_eligible_for_subscription" = Some (VBool true) /\
    data !! "subscription_price" = Some (VStr "$99").
Proof.
  destruct (render_flag_ignores_option (Demo.opts false)
              (Demo.fresh {[ "subscription_price" := VStr "$99" ]})
              5 {[ "subscription_price" := VStr "$99" ]})
    as (data & Hcall & Hflag & Hdata).
  - reflexivity.
  - unfold has_model. split; reflexivity.
  - reflexivity.
  - exists data. split; [exact Hcall|]. split; [exact Hflag|].
    rewrite Hdata; reflexivity.
Defined.

Lemma initialize_selects_template_witness :
  messageTpl (this (initialize (Demo.opts true) (Demo.fresh ∅)).2)
    = Some upgradeMessageSubscriptionTpl /\
  messageTpl (this (initialize (Demo.opts false) Demo.orphan).2)
    = Some upgradeMessageTpl /\
  template_calls (emitted (Demo.fresh ∅) (initialize (Demo.opts true) (Demo.fresh ∅)).2)
    = [(upgradeMessageSubscriptionTpl, render_data ∅)].
Proof.
  destruct (initialize_selects_template (Demo.opts true) (Demo.fresh ∅))
    as (Ht & _ & Hsel & _ & Hcall).
  destruct (initialize_selects_template (Demo.opts false) Demo.orphan)
    as (_ & Hf & Hsel' & _ & _).
  split; [|split].
  - rewrite Hsel. f_equal.
  - rewrite Hsel'. f_equal.
  - apply (Hcall 5 ∅). unfold has_model. split; reflexivity.
Defined.

(** ** Tracking registration and the order of the steps *)

Section Tracking.
Context `{Host}.

(** C4: for every construction whose render completes (the view has a model
    to serialize), [trackUpsellClick] is called exactly once, with all the
    elements that match [.program_dashboard_course_upsell_button] in the
    content just written into the mount element, however many there are, the
    category ["program_dashboard_course"] and the context
    [{linkType: "button", pageName: "program_dashboard",
    linkCategory: "green_upgrade"}]. *)
Theorem initialize_tracks_once (opts : options) (s : state) (l : loc) (a : object) :
  has_model s l a ->
  let s' := (initialize opts s).2 in
  exists html,
    written (emitted s s') = [(o_el opts, html)] /\
    dom s' !! o_el opts = Some html /\
    tracked (emitted s s') =
      [(querySelectorAll html ".program_dashboard_course_upsell_button",
        "program_dashboard_course",
        {[ "linkType" := VStr "button";
           "pageName" := VStr "program_dashboard";
           "linkCategory" := VStr "green_upgrade" ]})].
Proof.
  intros Hm s'. subst s'. rewrite (initialize_ok opts s l a Hm). cbn.
  eexists. rewrite emitted_mk. cbn. split; [reflexivity|]. split; [|reflexivity].
  apply lookup_insert_eq.
Qed.

(** C8: when the rendered markup has no element matching
    [.program_dashboard_course_upsell_button], construction still returns
    normally and [trackUpsellClick] is called once, with an empty
    collection. *)
Theorem initialize_without_buttons (opts : options) (s : state) (l : loc) (a : object) :
  has_model s l a ->
  querySelectorAll
    (HtmlUtils_template (selected_template (is_eligible_for_subscription opts))
       (render_data a))
    ".program_dashboard_course_upsell_button" = [] ->
  (initialize opts s).1 = Ok tt /\
  tracked (emitted s (initialize opts s).2) =
    [([], "program_dashboard_course",
      {[ "linkType" := VStr "button";
         "pageName" := VStr "program_dashboard";
         "linkCategory" := VStr "green_upgrade" ]})].
Proof.
  intros Hm Hnone. rewrite (initialize_ok opts s l a Hm). cbn.
  split; [done|]. rewrite emitted_mk. cbn. unfold upsell_selector.
  by rewrite Hnone.
Qed.

(** C9: within the one call of [initialize] the steps happen in a fixed
    order: the template is selected, the mount handle is stored, the model
    is serialized and merged with the defaults, the template is called, the
    content of the mount element is set, the upsell buttons are looked up,
    and the tracking hook is registered.  The lookup sees the content that
    was just written, whatever the element held before.  When there is no
    model to serialize, the call stops after the first two steps. *)
Theorem initialize_step_order (opts : options) (s : state) :
  let s' := (initialize opts s).2 in
  let t := selected_template (is_eligible_for_subscription opts) in
  (forall l a, has_model s l a ->
     let data := render_data a in
     let html := HtmlUtils_template t data in
     log s' = log s ++
       [SelectTemplate t; StoreEl (o_el opts); ToJSON l; Extend data;
        CallTemplate t data; SetHtml (o_el opts) html;
        Find (o_el opts) upsell_selector;
        TrackUpsellClick (querySelectorAll html upsell_selector)
          "program_dashboard_course" upsell_context]) /\
  ((forall l a, ~ has_model s l a) ->
     log s' = log s ++ [SelectTemplate t; StoreEl (o_el opts)]).
Proof.
  intros s' t. subst s'. split.
  - intros l a Hm. by rewrite (initialize_ok opts s l a Hm).
  - intros Hno.
    destruct (initialize_cases opts s) as [Hm|[(l & Hm & Ha)|(l & a & Hm)]].
    + by rewrite initialize_no_model.
    + by rewrite (initialize_not_a_model opts s l).
    + by destruct (Hno l a).
Qed.

End Tracking.

Lemma initialize_tracks_once_witness :
  exists html,
    dom (initialize (Demo.opts true) (Demo.fresh ∅)).2 !! 1 = Some html /\
    length (Demo.demo_select html ".program_dashboard_course_upsell_button") = 2 /\
    length (tracked (emitted (Demo.fresh ∅)
                       (initialize (Demo.opts true) (Demo.fresh ∅)).2)) = 1.
Proof.
  destruct (initialize_tracks_once (Demo.opts true) (Demo.fresh ∅) 5 ∅)
    as (html & Hw & Hdom & Htr).
  - unfold has_model. split; reflexivity.
  - exists html. split; [exact Hdom|]. split.
    + vm_compute in Hdom. injection Hdom as <-. reflexivity.
    + rewrite Htr. reflexivity.
Defined.

Lemma initialize_without_buttons_witness :
  (initialize (Demo.opts true)
     (Demo.fresh {[ "subscription_state" := VStr "inactive" ]})).1 = Ok tt /\
  tracked (emitted (Demo.fresh {[ "subscription_state" := VStr "inactive" ]})
             (initialize (Demo.opts true)
                (Demo.fresh {[ "subscription_state" := VStr "inactive" ]})).2) =
    [([], "program_dashboard_course", upsell_context)].
Proof.
  apply (initialize_without_buttons (Demo.opts true)
           (Demo.fresh {[ "subscription_state" := VStr "inactive" ]})
           5 {[ "subscription_state" := VStr "inactive" ]}).
  - unfold has_model. split; reflexivity.
  - reflexivity.
Defined.

Lemma initialize_step_order_witness :
  length (log (initialize (Demo.opts false) (Demo.fresh ∅)).2) = 8 /\
  log (initialize (Demo.opts false) Demo.orphan).2 =
    [SelectTemplate upgradeMessageTpl; StoreEl 1].
Proof.
  destruct (initialize_step_order (Demo.opts false) (Demo.fresh ∅)) as [Hok _].
  destruct (initialize_step_order (Demo.opts false) Demo.orphan) as [_ Hno].
  split.
  - rewrite (Hok 5 ∅); [reflexivity|]. unfold has_model. split; reflexivity.
  - rewrite Hno; [reflexivity|]. intros l a [Hl _]. discriminate Hl.
Defined.

(** ** Repeated renders, failures and what stays unchanged *)

Section Lifetime.
Context `{Host}.

Lemma after_renders_this (n : nat) (s : state) : this (after_renders n s) = this s.
Proof.
  induction n as [|n IH]; [done|].
  unfold after_renders in *. cbn. by rewrite render_this.
Qed.

Lemma after_renders_heap (n : nat) (s : state) : heap (after_renders n s) = heap s.
Proof.
  induction n as [|n IH]; [done|].
  unfold after_renders in *. cbn. by rewrite render_heap.
Qed.

(** Two calls of [render] on the same view, with the same attributes in its
    model, go the same way. *)
Lemma render_same_view (s s' : state) :
  this s' = this s ->
  (forall l, model (this s) = Some l -> heap s' !! l = heap s !! l) ->
  (render s').1 = (render s).1 /\
  emitted s' (render s').2 = emitted s (render s).2 /\
  ((render s).1 = Ok tt ->
   dom (render s').2 !! el (this s) = dom (render s).2 !! el (this s)).
Proof.
  intros Hthis Hheap.
  destruct (render_cases s) as [Hm|[(l & Hm & Ha)|[(l & a & Hm & Ht)|(l & a & t & Hm & Ht)]]].
  - rewrite (render_no_model s Hm), (render_no_model s') by congruence.
    cbn. by rewrite !emitted_refl.
  - rewrite (render_not_a_model s l Hm Ha).
    rewrite (render_not_a_model s' l) by (rewrite ?Hheap; congruence).
    cbn. by rewrite !emitted_refl.
  - assert (has_model s' l a) as Hm'.
    { destruct Hm as [Hl Ha]. split; [congruence|]. by rewrite Hheap. }
    rewrite (render_no_template s l a Hm Ht).
    rewrite (render_no_template s' l a Hm') by congruence.
    cbn. by rewrite !emitted_mk.
  - assert (has_model s' l a) as Hm'.
    { destruct Hm as [Hl Ha]. split; [congruence|]. by rewrite Hheap. }
    rewrite (render_ok s l a t Hm Ht).
    rewrite (render_ok s' l a t Hm') by congruence.
    cbn. rewrite !emitted_mk, Hthis, !lookup_insert_eq. done.
Qed.

Lemma render_twice_dom (s : state) :
  dom (render (render s).2).2 = dom (render s).2.
Proof.
  destruct (render_cases s) as [Hm|[(l & Hm & Ha)|[(l & a & Hm & Ht)|(l & a & t & Hm & Ht)]]].
  - rewrite (render_no_model s Hm). cbn. by rewrite (render_no_model s Hm).
  - rewrite (render_not_a_model s l Hm Ha). cbn.
    by rewrite (render_not_a_model s l Hm Ha).
  - rewrite (render_no_template s l a Hm Ht). cbn.
    by rewrite (render_no_template _ l a).
  - rewrite (render_ok s l a t Hm Ht). cbn.
    rewrite (render_ok _ l a t); [|done|done]. cbn.
    apply insert_insert_eq.
Qed.

(** C5: render is idempotent on the markup.  When the view and the
    attributes of its model are at the second call of [render] what they
    were after the first, the second call ends the way the first did and
    makes the same calls with the same arguments, so the same markup is
    produced and written, and after a first call that returned the mount
    element holds the same content after both.  Two calls in a row leave the
    content of every element as the first call left it. *)
Theorem render_idempotent (s : state) :
  let s1 := (render s).2 in
  (forall s1' : state,
     this s1' = this s1 ->
     (forall l, model (this s1) = Some l -> heap s1' !! l = heap s1 !! l) ->
     let s2 := (render s1').2 in
     (render s1').1 = (render s).1 /\
     emitted s1' s2 = emitted s s1 /\
     written (emitted s1' s2) = written (emitted s s1) /\
     ((render s).1 = Ok tt ->
      dom s2 !! el (this s2) = dom s1 !! el (this s1))) /\
  dom (render s1).2 = dom s1.
Proof.
  intros s1. subst s1. split; [|apply render_twice_dom].
  intros s1' Hthis Hheap s2. subst s2.
  rewrite render_this in Hthis. rewrite render_this, render_heap in Hheap.
  destruct (render_same_view s s1' Hthis Hheap) as (Hout & Hev & Hdom).
  rewrite !render_this, Hthis, Hev. auto.
Qed.

(** C6: when the view has no model at construction, the serialization in
    [render] throws and the exception leaves [initialize]: nothing is
    rendered in place of the model's data, no content is written and no
    tracking is registered.  With a model, construction returns normally
    for every options record. *)
Theorem initialize_fails_without_model (opts : options) (s : state) :
  (model (this s) = None ->
     (render (configured opts s)).1 = Throw (TypeError "this.model is undefined") /\
     (initialize opts s).1 = Throw (TypeError "this.model is undefined") /\
     template_calls (emitted s (initialize opts s).2) = [] /\
     written (emitted s (initialize opts s).2) = [] /\
     tracked (emitted s (initialize opts s).2) = [] /\
     dom (initialize opts s).2 = dom s) /\
  (forall l a, has_model s l a -> (initialize opts s).1 = Ok tt).
Proof.
  split.
  - intros Hm. rewrite (initialize_no_model opts s Hm).
    rewrite (render_no_model (configured opts s) Hm). cbn.
    unfold configured. by rewrite emitted_mk.
  - intros l a Hm. by rewrite (initialize_ok opts s l a Hm).
Qed.

(** C7: every construction selects exactly one of the two templates, which
    depends on nothing but the option [is_eligible_for_subscription], and
    the selection is the same after any number of renders. *)
Theorem selected_template_is_fixed (opts : options) (s : state) :
  (exists t,
     (t = upgradeMessageTpl \/ t = upgradeMessageSubscriptionTpl) /\
     forall n, messageTpl (this (after_renders n (initialize opts s).2)) = Some t) /\
  (forall (opts' : options) (s0 : state),
     is_eligible_for_subscription opts' = is_eligible_for_subscription opts ->
     messageTpl (this (initialize opts' s0).2) =
       messageTpl (this (initialize opts s).2)).
Proof.
  split.
  - exists (selected_template (is_eligible_for_subscription opts)). split.
    + unfold selected_template. destruct (truthy _); auto.
    + intros n. by rewrite after_renders_this, initialize_this.
  - intros opts' s0 E. by rewrite !initialize_this, E.
Qed.

(** C10: neither [initialize] nor any number of calls of [render] changes a
    model: the view keeps the model it had, and the attributes of every
    model are what they were. *)
Theorem model_is_not_mutated (opts : options) (s : state) (n : nat) :
  model (this (initialize opts s).2) = model (this s) /\
  heap (initialize opts s).2 = heap s /\
  model (this (after_renders n s)) = model (this s) /\
  heap (after_renders n s) = heap s /\
  model (this (after_renders n (initialize opts s).2)) = model (this s) /\
  heap (after_renders n (initialize opts s).2) = heap s.
Proof.
  rewrite !after_renders_this, !after_renders_heap, initialize_this, initialize_heap.
  done.
Qed.

End Lifetime.

Lemma render_idempotent_witness :
  (render (initialize (Demo.opts true) (Demo.fresh ∅)).2).1 = Ok tt /\
  written (emitted (render (initialize (Demo.opts true) (Demo.fresh ∅)).2).2
             (render (render (initialize (Demo.opts true) (Demo.fresh ∅)).2).2).2) =
  written (emitted (initialize (Demo.opts true) (Demo.fresh ∅)).2
             (render (initialize (Demo.opts true) (Demo.fresh ∅)).2).2).
Proof.
  split; [reflexivity|].
  destruct (render_idempotent (initialize (Demo.opts true) (Demo.fresh ∅)).2)
    as [Hsame _].
  destruct (Hsame (render (initialize (Demo.opts true) (Demo.fresh ∅)).2).2)
    as (_ & _ & Hw & _).
  - reflexivity.
  - intros l _. reflexivity.
  - exact Hw.
Defined.

Lemma initialize_fails_without_model_witness :
  (initialize (Demo.opts true) Demo.orphan).1 =
    Throw (TypeError "this.model is undefined") /\
  (initialize (Demo.opts true) (Demo.fresh ∅)).1 = Ok tt.
Proof.
  destruct (initialize_fails_without_model (Demo.opts true) Demo.orphan) as [Hno _].
  destruct (initialize_fails_without_model (Demo.opts true) (Demo.fresh ∅)) as [_ Hok].
  split.
  - apply Hno. reflexivity.
  - apply (Hok 5 ∅). unfold has_model. split; reflexivity.
Defined.

Lemma selected_template_is_fixed_witness :
  messageTpl (this (initialize (Demo.opts false) Demo.orphan).2) =
    messageTpl (this (initialize (Demo.opts false) (Demo.fresh ∅)).2).
Proof.
  destruct (selected_template_is_fixed (Demo.opts false) (Demo.fresh ∅)) as [_ Hsolely].
  apply (Hsolely (Demo.opts false) Demo.orphan). reflexivity.
Defined.

(** ** When the methods return, and what a failure leaves behind *)

Section Outcomes.
Context `{Host}.


(** [render] returns normally exactly when the view has a model that can be
    serialized and a template has been selected. *)
Theorem render_returns_iff_ready (s : state) :
  (render s).1 = Ok tt <->
  (exists l a, has_model s l a) /\ is_Some (messageTpl (this s)).
Proof.
  destruct (render_cases s) as [Hm|[(l & Hm & Ha)|[(l & a & Hm & Ht)|(l & a & t & Hm & Ht)]]].
  - rewrite (render_no_model s Hm). split; [done|].
    intros [(l & a & Hl & _) _]. congruence.
  - rewrite (render_not_a_model s l Hm Ha). split; [done|].
    intros [(l' & a & Hl & Ha') _]. congruence.
  - rewrite (render_no_template s l a Hm Ht). split; [done|].
    intros [_ [t Ht']]. congruence.
  - rewrite (render_ok s l a t Hm Ht). split; [|done].
    intros _. split; [eauto|]. by rewrite Ht.
Qed.

(** A call of [render] that throws has written nothing: the content of every
    element and the fields of the view are what they were, and no template
    output was set anywhere. *)
Theorem render_failure_writes_nothing (s : state) (e : exn) :
  (render s).1 = Throw e ->
  dom (render s).2 = dom s /\
  this (render s).2 = this s /\
  written (emitted s (render s).2) = [].
Proof.
  destruct (render_cases s) as [Hm|[(l & Hm & Ha)|[(l & a & Hm & Ht)|(l & a & t & Hm & Ht)]]].
  - rewrite (render_no_model s Hm). cbn. by rewrite emitted_refl.
  - rewrite (render_not_a_model s l Hm Ha). cbn. by rewrite emitted_refl.
  - rewrite (render_no_template s l a Hm Ht). cbn. by rewrite emitted_mk.
  - by rewrite (render_ok s l a t Hm Ht).
Qed.


End Outcomes.

Lemma render_failure_writes_nothing_witness :
  dom (render Demo.orphan).2 = dom Demo.orphan /\
  written (emitted Demo.orphan (render Demo.orphan).2) = [].
Proof.
  destruct (render_failure_writes_nothing Demo.orphan
              (TypeError "this.model is undefined")) as (Hdom & _ & Hw).
  - reflexivity.
  - split; [exact Hdom|exact Hw].
Defined.


(** ** What the methods leave alone *)

Section Frame.
Context `{Host}.


(** What one call of [render] adds to the log holds no lookup of buttons and
    no tracking call. *)
Lemma render_log (s : state) :
  exists es, log (render s).2 = log s ++ es /\ tracked es = [] /\ lookups es = [].
Proof.
  destruct (render_cases s) as [Hm|[(l & Hm & Ha)|[(l & a & Hm & Ht)|(l & a & t & Hm & Ht)]]].
  - rewrite (render_no_model s Hm). exists []. by rewrite app_nil_r.
  - rewrite (render_not_a_model s l Hm Ha). exists []. by rewrite app_nil_r.
  - rewrite (render_no_template s l a Hm Ht). by eexists.
  - rewrite (render_ok s l a t Hm Ht). by eexists.
Qed.

Lemma after_renders_S (n : nat) (s : state) :
  after_renders (S n) s = (render (after_renders n s)).2.
Proof. done. Qed.

Lemma after_renders_log (n : nat) (s : state) :
  exists es, log (after_renders n s) = log s ++ es /\ tracked es = [] /\ lookups es = [].
Proof.
  induction n as [|n (es & Hlog & Htr & Hlk)].
  - exists []. by rewrite app_nil_r.
  - destruct (render_log (after_renders n s)) as (es' & Hlog' & Htr' & Hlk').
    exists (es ++ es'). rewrite after_renders_S, Hlog', Hlog, app_assoc.
    unfold tracked, lookups in *. by rewrite !omap_app, Htr, Htr', Hlk, Hlk'.
Qed.




(** Only the constructor registers click tracking.  A call of [render] on
    its own looks up no button and tracks nothing, so however often the view
    is rendered again after a construction, the log of its lifetime holds
    the one lookup and the one tracking call of the construction, made on
    the markup of the first render. *)
Theorem tracking_only_at_construction
    (opts : options) (s : state) (l : loc) (a : object) (n : nat) :
  has_model s l a ->
  let html := HtmlUtils_template
                (selected_template (is_eligible_for_subscription opts))
                (render_data a) in
  let s' := after_renders n (initialize opts s).2 in
  tracked (emitted s s') =
    [(querySelectorAll html upsell_selector,
      "program_dashboard_course", upsell_context)] /\
  lookups (emitted s s') = [(o_el opts, upsell_selector)] /\
  tracked (emitted (initialize opts s).2 s') = [] /\
  length (written (emitted s s')) = S n.
Proof.
  intros Hm html s'. subst s'.
  destruct (after_renders_log n (initialize opts s).2) as (es & Hlog & Htr & Hlk).
  assert (length (written es) = n) as Hlen.
  { clear Htr Hlk. revert es Hlog. induction n as [|n IH]; intros es Hlog.
    - cbn in Hlog. rewrite <- (app_nil_r (log _)) in Hlog at 1.
      apply app_inv_head in Hlog. by subst es.
    - destruct (after_renders_log n (initialize opts s).2) as (es0 & Hlog0 & _ & _).
      specialize (IH es0 Hlog0).
      rewrite after_renders_S in Hlog.
      assert (has_model (after_renders n (initialize opts s).2) l a) as Hm'.
      { destruct Hm as [Hl Ha]. split.
        - by rewrite after_renders_this, initialize_this.
        - by rewrite after_renders_heap, initialize_heap. }
      rewrite (render_ok _ l a (selected_template (is_eligible_for_subscription opts)) Hm')
        in Hlog by (by rewrite after_renders_this, initialize_this).
      cbn in Hlog. rewrite Hlog0, <- app_assoc in Hlog.
      apply app_inv_head in Hlog. subst es.
      unfold written in *. rewrite omap_app, length_app, IH. cbn. lia. }
  rewrite (emitted_app (initialize opts s).2 _ es Hlog), Htr.
  assert (exists es0, log (initialize opts s).2 = log s ++ es0 /\
            tracked es0 = [(querySelectorAll html upsell_selector,
                            "program_dashboard_course", upsell_context)] /\
            lookups es0 = [(o_el opts, upsell_selector)] /\
            length (written es0) = 1) as (es0 & Hinit & Htr0 & Hlk0 & Hw0).
  { rewrite (initialize_ok opts s l a Hm). by eexists. }
  rewrite Hinit, <- app_assoc in Hlog.
  rewrite (emitted_app s _ _ Hlog).
  unfold tracked, lookups, written in *.
  rewrite !omap_app, Htr, Hlk, Htr0, Hlk0, length_app, Hlen, Hw0.
  done.
Qed.

End Frame.



Lemma tracking_only_at_construction_witness :
  length (tracked (emitted (Demo.fresh ∅)
                     (after_renders 3 (initialize (Demo.opts true) (Demo.fresh ∅)).2))) = 1 /\
  length (written (emitted (Demo.fresh ∅)
                     (after_renders 3 (initialize (Demo.opts true) (Demo.fresh ∅)).2))) = 4.
Proof.
  destruct (tracking_only_at_construction (Demo.opts true) (Demo.fresh ∅) 5 ∅ 3)
    as (Htr & _ & _ & Hw).
  - unfold has_model. split; reflexivity.
  - split; [by rewrite Htr|exact Hw].
Defined.

(** ** The flag, the options and the data *)

Section Data.
Context `{Host}.


(** The data the template receives does not depend on the options: two
    constructions of the same view with any two options records pass the
    same data, whichever template each of them selects. *)
Theorem data_independent_of_options (opts opts' : options) (s : state) :
  (template_calls (emitted s (initialize opts s).2)).*2 =
  (template_calls (emitted s (initialize opts' s).2)).*2.
Proof.
  destruct (initialize_cases opts s) as [Hm|[(l & Hm & Ha)|(l & a & Hm)]].
  - rewrite !initialize_emitted_throw; [done| |]; intros l a [Hl _]; congruence.
  - rewrite !initialize_emitted_throw; [done| |]; intros l' a [Hl Ha']; congruence.
  - by rewrite !(initialize_calls_template _ s l a Hm).
Qed.

(** When the model defines [is_eligible_for_subscription], the data carries
    the model's value, also when it disagrees with the option that selected
    the template. *)
Theorem model_flag_reaches_template
    (opts : options) (s : state) (l : loc) (a : object) (v : value) :
  has_model s l a ->
  defined_field a "is_eligible_for_subscription" = Some v ->
  exists data,
    template_calls (emitted s (initialize opts s).2) =
      [(selected_template (is_eligible_for_subscription opts), data)] /\
    data !! "is_eligible_for_subscription" = Some v.
Proof.
  intros Hm Hv. exists (render_data a). split.
  - apply (initialize_calls_template opts s l a Hm).
  - unfold render_data. by rewrite extend_lookup, Hv.
Qed.

Lemma defined_field_not_undefined (o : object) (k : string) (v : value) :
  defined_field o k = Some v -> v <> VUndefined.
Proof.
  unfold defined_field. destruct (o !! k) as [[]|]; congruence.
Qed.

Lemma defaults_not_undefined (k : string) (v : value) :
  defaults !! k = Some v -> v <> VUndefined.
Proof.
  unfold defaults. rewrite !lookup_insert, lookup_empty.
  repeat case_decide; congruence.
Qed.

(** Whatever the model holds, every call of a template by [render] receives
    the four fields of the default record with a value other than
    [undefined], and no field of the data holds [undefined]. *)
Theorem template_data_has_defaults
    (s : state) (t : template_source) (data : object) :
  (t, data) ∈ template_calls (emitted s (render s).2) ->
  (forall k d, defaults !! k = Some d ->
     exists v, data !! k = Some v /\ v <> VUndefined) /\
  (forall k, data !! k <> Some VUndefined).
Proof.
  intros Hin.
  assert (exists a, data = render_data a) as [a ->].
  { destruct (render_cases s) as [Hm|[(l & Hm & Ha)|[(l & a & Hm & Ht)|(l & a & t' & Hm & Ht)]]].
    - rewrite (render_no_model s Hm) in Hin. cbn in Hin.
      rewrite emitted_refl in Hin. by apply elem_of_nil in Hin.
    - rewrite (render_not_a_model s l Hm Ha) in Hin. cbn in Hin.
      rewrite emitted_refl in Hin. by apply elem_of_nil in Hin.
    - rewrite (render_no_template s l a Hm Ht) in Hin. cbn in Hin.
      rewrite emitted_mk in Hin. by apply elem_of_nil in Hin.
    - rewrite (render_calls_template s l a t' Hm Ht) in Hin.
      apply list_elem_of_singleton in Hin. injection Hin as _ ->. eauto. }
  split.
  - intros k d Hd. unfold render_data. rewrite extend_lookup.
    destruct (defined_field a k) as [v|] eqn:Hk.
    + exists v. split; [done|]. by apply (defined_field_not_undefined a k).
    + exists d. split; [done|]. by apply (defaults_not_undefined k).
  - intros k. unfold render_data. rewrite extend_lookup.
    destruct (defined_field a k) as [v|] eqn:Hk.
    + intros [= ->]. by apply (defined_field_not_undefined a k VUndefined).
    + intros Hd. by apply (defaults_not_undefined k VUndefined).
Qed.

(** A model field set to [null] replaces the default of the same name,
    while a field set to [undefined] leaves the default in place. *)
Theorem render_data_null_and_undefined (a : object) (k : string) :
  (a !! k = Some VNull -> render_data a !! k = Some VNull) /\
  (a !! k = Some VUndefined -> render_data a !! k = defaults !! k).
Proof.
  unfold render_data. rewrite extend_lookup. unfold defined_field.
  split; intros ->; done.
Qed.

(** A model that defines all four fields of the default record, and holds
    no [undefined], is passed to the template as it is. *)
Theorem render_data_full_model (a : object) :
  (forall k d, defaults !! k = Some d -> is_Some (a !! k)) ->
  (forall k, a !! k <> Some VUndefined) ->
  render_data a = a.
Proof.
  intros Hall Hdef. apply map_eq. intros k. unfold render_data.
  rewrite extend_lookup. unfold defined_field.
  destruct (a !! k) as [v|] eqn:Hk.
  - destruct v; try done. by destruct (Hdef k).
  - destruct (defaults !! k) as [d|] eqn:Hd; [|done].
    destruct (Hall k d Hd) as [v Hv]. congruence.
Qed.

(** [render] reads the model when it is called: after the attributes of the
    model have changed, a new call of [render] on a constructed view calls
    the template selected at construction with the merge of the new
    attributes, and the mount element holds that markup. *)
Theorem rerender_shows_current_model
    (opts : options) (s : state) (l : loc) (a a' : object) :
  has_model s l a ->
  let t := selected_template (is_eligible_for_subscription opts) in
  let s1 := set_attributes l a' (initialize opts s).2 in
  (render s1).1 = Ok tt /\
  template_calls (emitted s1 (render s1).2) = [(t, render_data a')] /\
  dom (render s1).2 !! o_el opts = Some (HtmlUtils_template t (render_data a')).
Proof.
  intros Hm t s1.
  assert (has_model s1 l a') as Hm1.
  { subst s1. split; cbn.
    - rewrite initialize_this. cbn. by destruct Hm.
    - apply lookup_insert_eq. }
  assert (messageTpl (this s1) = Some t) as Ht1.
  { subst s1. cbn. by rewrite initialize_this. }
  assert (el (this s1) = o_el opts) as Hel1.
  { subst s1. cbn. by rewrite initialize_this. }
  clearbody s1.
  rewrite (render_calls_template s1 l a' t Hm1 Ht1).
  rewrite (render_ok s1 l a' t Hm1 Ht1). cbn.
  rewrite Hel1, lookup_insert_eq. done.
Qed.

End Data.

Lemma model_flag_reaches_template_witness :
  exists data,
    template_calls
      (emitted (Demo.fresh {[ "is_eligible_for_subscription" := VBool false ]})
         (initialize (Demo.opts true)
            (Demo.fresh {[ "is_eligible_for_subscription" := VBool false ]})).2)
      = [(upgradeMessageSubscriptionTpl, data)] /\
    data !! "is_eligible_for_subscription" = Some (VBool false).
Proof.
  apply (model_flag_reaches_template (Demo.opts true)
           (Demo.fresh {[ "is_eligible_for_subscription" := VBool false ]})
           5 {[ "is_eligible_for_subscription" := VBool false ]} (VBool false)).
  - unfold has_model. split; reflexivity.
  - reflexivity.
Defined.

Lemma template_data_has_defaults_witness :
  exists v,
    render_data {[ "trial_length" := VUndefined ]} !! "trial_length" = Some v /\
    v <> VUndefined.
Proof.
  destruct (template_data_has_defaults
              (configured (Demo.opts false) (Demo.fresh {[ "trial_length" := VUndefined ]}))
              upgradeMessageTpl (render_data {[ "trial_length" := VUndefined ]}))
    as [Hfour _].
  - vm_compute. apply list_elem_of_here.
  - apply (Hfour "trial_length" (VNum 7)). reflexivity.
Defined.

Lemma render_data_null_and_undefined_witness :
  render_data {[ "trial_length" := VNull ]} !! "trial_length" = Some VNull /\
  render_data {[ "trial_length" := VUndefined ]} !! "trial_length" = Some (VNum 7).
Proof.
  split.
  - apply (render_data_null_and_undefined {[ "trial_length" := VNull ]} "trial_length").
    reflexivity.
  - apply (render_data_null_and_undefined {[ "trial_length" := VUndefined ]} "trial_length").
    reflexivity.
Defined.

Lemma render_data_full_model_witness :
  render_data (<["subscription_price" := VStr "$99"]> (<["course" := VNull]> defaults))
    = <["subscription_price" := VStr "$99"]> (<["course" := VNull]> defaults).
Proof.
  apply render_data_full_model.
  - intros k d. unfold defaults. rewrite !lookup_insert, lookup_empty.
    repeat case_decide; try done; intros _; by eexists.
  - intros k. unfold defaults. rewrite !lookup_insert, lookup_empty.
    repeat case_decide; congruence.
Defined.

Lemma rerender_shows_current_model_witness :
  dom (render (set_attributes 5 {[ "subscription_price" := VStr "$99" ]}
                 (initialize (Demo.opts false) (Demo.fresh ∅)).2)).2 !! 1
    = Some [Demo.button upgradeMessageTpl
              (<["subscription_price" := VStr "$99"]> defaults)].
Proof.
  destruct (rerender_shows_current_model (Demo.opts false) (Demo.fresh ∅) 5 ∅
              {[ "subscription_price" := VStr "$99" ]}) as (_ & _ & Hdom).
  - unfold has_model. split; reflexivity.
  - etrans; [exact Hdom|reflexivity].
Defined.


Lemma render_returns_iff_ready_witness :
  (render (Demo.fresh ∅)).1 <> Ok tt /\
  (render (configured (Demo.opts true) (Demo.fresh ∅))).1 = Ok tt.
Proof.
  split.
  - intros Hok. apply (render_returns_iff_ready (Demo.fresh ∅)) in Hok.
    destruct Hok as [_ [t Ht]]. discriminate Ht.
  - apply (render_returns_iff_ready (configured (Demo.opts true) (Demo.fresh ∅))).
    split.
    + exists 5, ∅. unfold has_model. split; reflexivity.
    + eexists. reflexivity.
Defined.

